(** * minimal-cicd-sample: credential resolution and idempotent provisioning

    A shallow embedding of the three scripts of the repository
    ([scripts/init.py], [scripts/deploy.py], [scripts/check.py]) and the
    properties of their decision logic.

    The scripts are sequential Python programs whose only effects are
    console output, reads and writes of a few files, one pseudo-random
    draw, and blocking calls to external commands.  They are embedded as
    computations in a state-and-exception monad over an explicit process
    state; everything outside the process (the cloud, the secret store, the
    tools behind the shell) is a transition function of the [World]. *)

From Stdlib Require Import ZArith String Ascii List Floats Lia.
From stdpp Require Import gmap strings list fin_maps.
Import ListNotations.

#[local] Open Scope string_scope.
#[local] Open Scope Z_scope.
#[local] Set Warnings "-register-all".

(** ** Python values *)

(** The values [json.loads] can yield; also the values that end up in the
    environment dictionary of [deploy.py] (where [setdefault] may store any
    of them).  A [JObj] is a [dict]: [assoc] finds the entry of a key. *)
Inductive json : Type :=
| JNull
| JBool (b : bool)
| JInt (n : Z)
| JFloat (x : float)
| JStr (s : string)
| JArr (items : list json)
| JObj (entries : list (string * json)).

(** Python truthiness ([if v:], [not v], [a or b]). *)
Definition truthy (v : json) : bool :=
  match v with
  | JNull => false
  | JBool b => b
  | JInt n => negb (n =? 0)
  | JFloat x => negb (PrimFloat.eqb x 0%float)
  | JStr s => negb (String.eqb s "")
  | JArr items => match items with [] => false | _ :: _ => true end
  | JObj entries => match entries with [] => false | _ :: _ => true end
  end.

(** [a or b] *)
Definition py_or (a b : json) : json := if truthy a then a else b.

Fixpoint assoc (k : string) (entries : list (string * json)) : option json :=
  match entries with
  | [] => None
  | (k', v) :: rest => if String.eqb k k' then Some v else assoc k rest
  end.

(** What an [Optional[str]] looks like as a value ([None] or a [str]). *)
Definition of_opt_str (o : option string) : json :=
  match o with Some s => JStr s | None => JNull end.

(** ** Exceptions and results *)

Inductive exn : Type :=
| SystemExit (code : Z)
| CalledProcessError (cmd : string) (returncode : Z)
| JSONDecodeError
| KeyError (key : string)
| TypeError
| AttributeError
| FileNotFoundError (path : string)
| IsADirectoryError (path : string).

Inductive outcome (A : Type) : Type :=
| Ok (a : A)
| Raise (e : exn).
Arguments Ok {A} a.
Arguments Raise {A} e.

(** The exit status of the interpreter: 0 when the script runs to its end,
    the argument of [sys.exit], and 1 for any other uncaught exception. *)
Definition exit_status {A} (o : outcome A) : Z :=
  match o with
  | Ok _ => 0
  | Raise (SystemExit code) => code
  | Raise _ => 1
  end.

(** [v[k]] *)
Definition getitem (v : json) (k : string) : outcome json :=
  match v with
  | JObj entries =>
      match assoc k entries with
      | Some x => Ok x
      | None => Raise (KeyError k)
      end
  | _ => Raise TypeError
  end.

(** [v.get(k)] and [v.get(k, d)] *)
Definition dict_get (v : json) (k : string) (d : json) : outcome json :=
  match v with
  | JObj entries =>
      match assoc k entries with
      | Some x => Ok x
      | None => Ok d
      end
  | _ => Raise AttributeError
  end.

(** ** The process and its surroundings *)

(** What [subprocess.run] reports back. *)
Record Completed : Type := mkCompleted { returncode : Z; stdout : string }.

Inductive node : Type :=
| File (content : string)
| Dir.

(** What the script does that is visible from outside, in order: a line
    written by [print], or a call of [subprocess.run] with the environment
    handed to the child, the [check] and [capture_output] flags, and the
    result. *)
Inductive event : Type :=
| Print (line : string)
| Subprocess (cmd : string) (env : gmap string string)
             (check capture : bool) (res : Completed).

(** Everything the scripts take from outside.  [shell] is the effect of one
    external command on the state [extern] of the outside world and on the
    file system; the remaining fields are the process environment, the
    working directory, the name [tempfile] picks, the generator behind
    [random.random] (the [i]-th draw; [random.choices] uses
    [floor(random() * n)], here the draw modulo [n]), and the library
    functions [json.loads], [json.dumps], [str] on non-strings and
    [str.strip]. *)
Record World : Type := mkWorld {
  extern : Type;
  shell : extern -> gmap string node -> string -> gmap string string ->
          Completed * extern * gmap string node;
  os_environ : gmap string string;
  cwd : string;
  mkstemp : gmap string node -> string;
  random : nat -> nat;
  json_loads : string -> option json;
  json_dumps : json -> string;
  py_str : json -> string;
  str_strip : string -> string
}.

(** [s.startswith(p)] *)
Fixpoint starts_with (p s : string) : bool :=
  match p with
  | EmptyString => true
  | String a p' =>
      match s with
      | EmptyString => false
      | String b s' => Ascii.eqb a b && starts_with p' s'
      end
  end.

Definition dq : string := String "034"%char "".
Definition nl : string := String "010"%char "".

Section Runtime.
Context (w : World).

Record state : Type := mkState {
  ext : extern w;
  files : gmap string node;
  trace : list event;
  drawn : nat
}.

Definition M (A : Type) : Type := state -> outcome A * state.

Definition ret {A} (a : A) : M A := fun st => (Ok a, st).
Definition raise {A} (e : exn) : M A := fun st => (Raise e, st).
Definition bind {A B} (m : M A) (k : A -> M B) : M B :=
  fun st =>
    match m st with
    | (Ok a, st') => k a st'
    | (Raise e, st') => (Raise e, st')
    end.
Definition lift {A} (o : outcome A) : M A := fun st => (o, st).

(** [try: body finally: cleanup] *)
Definition try_finally {A} (body : M A) (cleanup : M unit) : M A :=
  fun st =>
    let '(o, st1) := body st in
    match cleanup st1 with
    | (Ok _, st2) => (o, st2)
    | (Raise e, st2) => (Raise e, st2)
    end.

Definition log (e : event) (st : state) : state :=
  mkState (ext st) (files st) (trace st ++ [e]) (drawn st).

Definition print (line : string) : M unit :=
  fun st => (Ok tt, log (Print line) st).

Definition sys_exit {A} (code : Z) : M A := raise (SystemExit code).

(** [subprocess.run(cmd, shell=True, check=..., capture_output=..., env=...)] *)
Definition subprocess_run (cmd : string) (env : gmap string string)
    (check capture : bool) : M Completed :=
  fun st =>
    let '(res, x', fs') := shell w (ext st) (files st) cmd env in
    let st' := mkState x' fs' (trace st ++ [Subprocess cmd env check capture res])
                       (drawn st) in
    if check && negb (returncode res =? 0)
    then (Raise (CalledProcessError cmd (returncode res)), st')
    else (Ok res, st').

(** [os.path.exists], [os.path.isdir] *)
Definition path_exists (p : string) : M bool :=
  fun st => (Ok (match files st !! p with Some _ => true | None => false end), st).
Definition path_isdir (p : string) : M bool :=
  fun st => (Ok (match files st !! p with Some Dir => true | _ => false end), st).

(** [with open(p) as f: f.read()] *)
Definition read_file (p : string) : M string :=
  fun st =>
    match files st !! p with
    | Some (File content) => (Ok content, st)
    | Some Dir => (Raise (IsADirectoryError p), st)
    | None => (Raise (FileNotFoundError p), st)
    end.

Definition loads (s : string) : M json :=
  match json_loads w s with
  | Some v => ret v
  | None => raise JSONDecodeError
  end.

(** [with open(p) as f: json.load(f)] *)
Definition json_load (p : string) : M json :=
  bind (read_file p) loads.

(** [os.unlink] *)
Definition unlink (p : string) : M unit :=
  fun st =>
    match files st !! p with
    | Some (File _) =>
        (Ok tt, mkState (ext st) (delete p (files st)) (trace st) (drawn st))
    | Some Dir => (Raise (IsADirectoryError p), st)
    | None => (Raise (FileNotFoundError p), st)
    end.

(** [tmp = tempfile.NamedTemporaryFile(mode='w', suffix='.json', delete=False)],
    followed by the write of [content] and [tmp.close()]; yields [tmp.name]. *)
Definition write_temp (content : string) : M string :=
  fun st =>
    let name := mkstemp w (files st) in
    (Ok name,
     mkState (ext st) (<[name := File content]> (files st)) (trace st) (drawn st)).

(** [os.path.abspath] of a plain file name *)
Definition abspath (p : string) : string :=
  if String.eqb (cwd w) "/" then "/" +:+ p else cwd w +:+ "/" +:+ p.

(** [random.choices(population, k=k)], joined into a string *)
Fixpoint choices (population : list ascii) (k : nat) (i : nat) : string :=
  match k with
  | O => ""
  | S k' =>
      String (nth (random w i mod length population)%nat population "000"%char)
             (choices population k' (S i))
  end.
Definition random_choices (population : list ascii) (k : nat) : M string :=
  fun st =>
    (Ok (choices population k (drawn st)),
     mkState (ext st) (files st) (trace st) (drawn st + k)%nat).

(** The [{v}] of an f-string *)
Definition fmt (v : json) : string :=
  match v with
  | JStr s => s
  | _ => py_str w v
  end.

Definition initial (x : extern w) (fs : gmap string node) : state :=
  mkState x fs [] 0%nat.
End Runtime.

Arguments ret {w A} a.
Arguments raise {w A} e.
Arguments bind {w A B} m k.
Arguments lift {w A} o.
Arguments try_finally {w A} body cleanup.
Arguments print {w} line.
Arguments sys_exit {w A} code.
Arguments read_file {w} p.
Arguments path_exists {w} p.
Arguments path_isdir {w} p.
Arguments unlink {w} p.
Arguments log {w} e st.

Notation "x <- m ;; k" := (bind m (fun x => k))
  (at level 100, m at next level, right associativity).
Notation "m ;;; k" := (bind m (fun _ => k))
  (at level 100, right associativity).

(** ** scripts/deploy.py *)

Module Deploy.
Section Deploy.
Context (w : World).

(** [d.setdefault(k, v)] *)
Definition setdefault (k : string) (v : json) (d : gmap string json) :
    gmap string json :=
  match d !! k with
  | Some _ => d
  | None => <[k := v]> d
  end.

Definition as_str (v : json) : option string :=
  match v with JStr s => Some s | _ => None end.

(** The environment block [subprocess] builds from an [env] mapping:
    every value must be a [str]. *)
Definition environ_of (env : gmap string json) : option (gmap string string) :=
  if forallb (fun kv => match as_str kv.2 with Some _ => true | None => false end)
             (map_to_list env)
  then Some (omap as_str env)
  else None.

Definition run (cmd : string) (env : option (gmap string json)) : M w unit :=
  print ("  $ " +:+ cmd);;;
  match env with
  | Some e =>
      if bool_decide (e = ∅)
      then subprocess_run w cmd (os_environ w) true false;;; ret tt
      else match environ_of e with
           | Some block => subprocess_run w cmd block true false;;; ret tt
           | None => raise TypeError
           end
  | None => subprocess_run w cmd (os_environ w) true false;;; ret tt
  end.

Definition setup_credentials : M w (gmap string json * option string) :=
  let env : gmap string json := JStr <$> os_environ w in
  there <- path_exists "sa-key.json";;
  if (there : bool) then
    print "Auth: using local sa-key.json";;;
    creds <- json_load w "sa-key.json";;
    let env := <["GOOGLE_APPLICATION_CREDENTIALS" := JStr (abspath w "sa-key.json")]> env in
    project_id <- lift (getitem creds "project_id");;
    ret (setdefault "GCP_PROJECT_ID" project_id env, None)
  else match os_environ w !! "GCP_SA_KEY" with
  | Some key =>
    print "Auth: using GCP_SA_KEY env var (key file mode)";;;
    creds <- loads w key;;
    tmp_key_path <- write_temp w (json_dumps w creds);;
    let env := <["GOOGLE_APPLICATION_CREDENTIALS" := JStr tmp_key_path]> env in
    project_id <- lift (getitem creds "project_id");;
    ret (setdefault "GCP_PROJECT_ID" project_id env, Some tmp_key_path)
  | None =>
  match os_environ w !! "GCP_SA_EMAIL" with
  | Some email =>
    print ("Auth: ADC + impersonating " +:+ email);;;
    ret (<["GOOGLE_IMPERSONATE_SERVICE_ACCOUNT" := JStr email]> env, None)
  | None =>
    print "Auth: using ambient credentials (WIF or ADC)";;;
    ret (env, None)
  end end.

Definition get_project_id (env : gmap string json) : M w json :=
  let project_id :=
    py_or (default JNull (env !! "GCP_PROJECT_ID"))
          (of_opt_str (os_environ w !! "GCP_PROJECT_ID")) in
  if negb (truthy project_id) then
    print "ERROR: GCP_PROJECT_ID not set.";;;
    print "  Set it with: export GCP_PROJECT_ID=<your-project-id>";;;
    sys_exit 1
  else ret project_id.

Definition cleanup (tmp_key_path : option string) : M w unit :=
  match tmp_key_path with
  | Some p => if negb (String.eqb p "") then unlink p else ret tt
  | None => ret tt
  end.

Definition main : M w unit :=
  resolved <- setup_credentials;;
  let '(env, tmp_key_path) := resolved in
  project_id <- get_project_id env;;
  let env := <["GCP_PROJECT_ID" := project_id]> env in
  let env := <["GOOGLE_PROJECT" := project_id]> env in
  print ("Project ID: " +:+ fmt w project_id);;;
  try_finally
    (print (nl +:+ "--- GCP Access Validation ---");;;
     run ("gcloud projects describe " +:+ fmt w project_id
          +:+ " --format='value(name)'") (Some env);;;
     print (nl +:+ "--- Terraform ---");;;
     run "terraform -chdir=terraform init" (Some env);;;
     run ("terraform -chdir=terraform plan -var='project_id="
          +:+ fmt w project_id +:+ "'") (Some env);;;
     print (nl +:+ "--- Helm ---");;;
     run ("helm template minimal-demo ./helm --set projectId="
          +:+ fmt w project_id) None;;;
     print (nl +:+ "--- Checks ---");;;
     run "python3 scripts/check.py" (Some env))
    (cleanup tmp_key_path);;;
  print (nl +:+ "✅ Deploy complete.").
End Deploy.
End Deploy.

(** ** scripts/check.py *)

Module Check.
Section Check.
Context (w : World).

(** The value returned is a parsed document or [None] ([JNull]). *)
Definition load_credentials : M w json :=
  let key_file := "sa-key.json" in
  there <- path_exists key_file;;
  if (there : bool) then json_load w key_file
  else match os_environ w !! "GCP_SA_KEY" with
       | Some key => loads w key
       | None => ret JNull
       end.

(** The loop body of [check_structure], over the directories left. *)
Fixpoint check_dirs (required : list string) (ok : bool) : M w bool :=
  match required with
  | [] => ret ok
  | d :: rest =>
      there <- path_isdir d;;
      if (there : bool)
      then print ("  ✅ " +:+ d +:+ "/");;; check_dirs rest ok
      else print ("  ❌ " +:+ d +:+ "/ missing");;; check_dirs rest false
  end.

Definition required : list string := ["terraform"; "helm"; "scripts"].

Definition check_structure : M w bool :=
  print "Checking repo structure...";;;
  check_dirs required true.

Definition check_apigee_api (project_id : json) : M w unit :=
  print (nl +:+ "Checking Apigee API for project: " +:+ fmt w project_id);;;
  token_result <- subprocess_run w "gcloud auth print-access-token"
                    (os_environ w) false true;;
  if negb (returncode token_result =? 0) then
    print "  ⚠️  No gcloud token available, skipping Apigee API check."
  else
    let token := str_strip w (stdout token_result) in
    let url := "https://apigee.googleapis.com/v1/organizations/"
               +:+ fmt w project_id in
    result <- subprocess_run w
                ("curl -s -o /tmp/apigee_resp.json -w '%{http_code}' "
                 +:+ "-H 'Authorization: Bearer " +:+ token +:+ "' " +:+ url)
                (os_environ w) false true;;
    let http_code := str_strip w (stdout result) in
    if String.eqb http_code "200" then
      data <- json_load w "/tmp/apigee_resp.json";;
      name <- lift (dict_get data "name" project_id);;
      print ("  ✅ Apigee org found: " +:+ fmt w name)
    else if String.eqb http_code "404" then
      print "  ℹ️  No Apigee org found for this project (not yet provisioned — skipping)."
    else
      print ("  ⚠️  Apigee API returned HTTP " +:+ http_code +:+ " — skipping check.").

Definition main : M w unit :=
  ok <- check_structure;;
  if negb ok then sys_exit 1
  else
    creds <- load_credentials;;
    (if truthy creds then
       project_id <- lift (getitem creds "project_id");;
       check_apigee_api project_id
     else
       print (nl +:+ "⚠️  No credentials found, skipping Apigee API check."));;;
    print (nl +:+ "✅ All checks passed.").
End Check.
End Check.

(** ** scripts/init.py *)

Module Init.
Definition GITHUB_REPO_DEFAULT : string := "krisrowe/minimal-cicd-sample".
Definition POOL_ID : string := "github-pool".
Definition PROVIDER_ID : string := "github-provider".
Definition KEY_FILE : string := "sa-key.json".

(** The namespace [argparse] returns. *)
Record Args : Type := mkArgs {
  project_id : option string;
  billing_account : option string;
  github_repo : string
}.

(** [parser.parse_args()] on an optional positional project id and the
    optional flags [--billing-account] and [--github-repo]. *)
Definition parse_args (positional billing repo : option string) : Args :=
  mkArgs positional billing (default GITHUB_REPO_DEFAULT repo).

(** [string.ascii_lowercase + string.digits] *)
Definition alphabet : list ascii :=
  list_ascii_of_string "abcdefghijklmnopqrstuvwxyz0123456789".

Section Init.
Context (w : World).

(** [run(cmd, check, capture)]: the stripped output when [capture] is set,
    [None] otherwise. *)
Definition run (cmd : string) (check capture : bool) : M w json :=
  result <- subprocess_run w cmd (os_environ w) check capture;;
  ret (if capture then JStr (str_strip w (stdout result)) else JNull).

Definition exists_ (cmd : string) : M w bool :=
  result <- subprocess_run w cmd (os_environ w) false true;;
  ret (returncode result =? 0).

Definition generate_project_id : M w json :=
  suffix <- random_choices w alphabet 6;;
  let project_id := "min-cicd-sample-" +:+ suffix in
  print ("Auto-generated project ID: " +:+ project_id);;;
  ret (JStr project_id).

Definition resolve_project_id (args : Args) : M w json :=
  let arg := of_opt_str (project_id args) in
  if truthy arg then
    print ("Using project ID from argument: " +:+ fmt w arg);;;
    ret arg
  else
    there <- path_exists KEY_FILE;;
    if (there : bool) then
      data <- json_load w KEY_FILE;;
      project_id <- lift (dict_get data "project_id" JNull);;
      if truthy project_id then
        print ("Using project ID from existing " +:+ KEY_FILE +:+ ": "
               +:+ fmt w project_id);;;
        ret project_id
      else generate_project_id
    else generate_project_id.

Definition pool_describe (project_id : string) : string :=
  "gcloud iam workload-identity-pools describe " +:+ POOL_ID
  +:+ " --location=global --project " +:+ project_id.
Definition pool_create (project_id : string) : string :=
  "gcloud iam workload-identity-pools create " +:+ POOL_ID +:+ " "
  +:+ "--location=global --display-name=" +:+ dq +:+ "GitHub Actions Pool" +:+ dq
  +:+ " --project " +:+ project_id.
Definition provider_describe (project_id : string) : string :=
  "gcloud iam workload-identity-pools providers describe " +:+ PROVIDER_ID +:+ " "
  +:+ "--workload-identity-pool=" +:+ POOL_ID
  +:+ " --location=global --project " +:+ project_id.
Definition provider_create (project_id github_repo : string) : string :=
  "gcloud iam workload-identity-pools providers create-oidc " +:+ PROVIDER_ID +:+ " "
  +:+ "--workload-identity-pool=" +:+ POOL_ID +:+ " --location=global "
  +:+ "--issuer-uri=" +:+ dq +:+ "https://token.actions.githubusercontent.com" +:+ dq +:+ " "
  +:+ "--attribute-mapping=" +:+ dq
  +:+ "google.subject=assertion.sub,attribute.repository=assertion.repository"
  +:+ dq +:+ " "
  +:+ "--attribute-condition=" +:+ dq +:+ "attribute.repository==\" +:+ dq
  +:+ github_repo +:+ "\" +:+ dq +:+ dq +:+ " "
  +:+ "--project " +:+ project_id.

Definition setup_wif (project_id sa_email github_repo : string) : M w unit :=
  print (nl +:+ "  Falling back to Workload Identity Federation (keyless)...");;;
  pool <- exists_ (pool_describe project_id);;
  (if (pool : bool) then
     print ("  ✅ WIF Pool '" +:+ POOL_ID +:+ "' already exists.")
   else
     print ("  Creating WIF Pool '" +:+ POOL_ID +:+ "'...");;;
     run (pool_create project_id) true false;;; ret tt);;;
  provider <- exists_ (provider_describe project_id);;
  (if (provider : bool) then
     print ("  ✅ WIF Provider '" +:+ PROVIDER_ID +:+ "' already exists.")
   else
     print ("  Creating WIF Provider '" +:+ PROVIDER_ID +:+ "'...");;;
     run (provider_create project_id github_repo) true false;;; ret tt);;;
  print "  Granting SA impersonation to WIF provider...";;;
  project_number <- run ("gcloud projects describe " +:+ project_id
                         +:+ " --format='value(projectNumber)'") true true;;
  let wif_member :=
    "principalSet://iam.googleapis.com/projects/" +:+ fmt w project_number
    +:+ "/locations/global/workloadIdentityPools/" +:+ POOL_ID
    +:+ "/attribute.repository/" +:+ github_repo in
  run ("gcloud iam service-accounts add-iam-policy-binding " +:+ sa_email +:+ " "
       +:+ "--role='roles/iam.workloadIdentityUser' --member='" +:+ wif_member
       +:+ "' --project " +:+ project_id) true false;;;
  full_provider <- run (provider_describe project_id +:+ " "
                        +:+ "--format='value(name)'") true true;;
  print "  Pushing WIF secrets to GitHub...";;;
  run ("gh secret set WIF_PROVIDER --body '" +:+ fmt w full_provider +:+ "'") true false;;;
  run ("gh secret set WIF_SA_EMAIL --body '" +:+ sa_email +:+ "'") true false;;;
  run ("gh secret set GCP_PROJECT_ID --body '" +:+ project_id +:+ "'") true false;;;
  print "  ✅ WIF setup complete. GitHub secrets: WIF_PROVIDER, WIF_SA_EMAIL, GCP_PROJECT_ID".

Definition project_describe (project_id : string) : string :=
  "gcloud projects describe " +:+ project_id.
Definition project_create (project_id : string) : string :=
  "gcloud projects create " +:+ project_id +:+ " --name=" +:+ dq
  +:+ "Minimal CICD Demo" +:+ dq.
Definition sa_describe (sa_email project_id : string) : string :=
  "gcloud iam service-accounts describe " +:+ sa_email
  +:+ " --project " +:+ project_id.
Definition sa_create (sa_name project_id : string) : string :=
  "gcloud iam service-accounts create " +:+ sa_name +:+ " --display-name="
  +:+ dq +:+ "Deployer SA" +:+ dq +:+ " --project " +:+ project_id.
Definition key_export (sa_email project_id : string) : string :=
  "gcloud iam service-accounts keys create " +:+ KEY_FILE +:+ " "
  +:+ "--iam-account=" +:+ sa_email +:+ " --project " +:+ project_id.

Definition main (args : Args) : M w unit :=
  resolved <- resolve_project_id args;;
  let project_id := fmt w resolved in
  let sa_name := "deployer" in
  let sa_email := sa_name +:+ "@" +:+ project_id +:+ ".iam.gserviceaccount.com" in
  let github_repo := github_repo args in
  print (nl +:+ "Initializing project: " +:+ project_id);;;
  (* 1. Create project (idempotent) *)
  project <- exists_ (project_describe project_id);;
  (if (project : bool) then
     print "  ✅ Project already exists, skipping creation."
   else
     (if negb (truthy (of_opt_str (billing_account args))) then
        print "ERROR: --billing-account is required when creating a new project.";;;
        print "  Find yours with: gcloud billing accounts list";;;
        sys_exit 1
      else ret tt);;;
     print ("  Creating project " +:+ project_id +:+ "...");;;
     run (project_create project_id) true false;;; ret tt);;;
  (* 2. Link billing (if provided) *)
  (if truthy (of_opt_str (billing_account args)) then
     print "  Linking billing account...";;;
     run ("gcloud billing projects link " +:+ project_id +:+ " --billing-account="
          +:+ fmt w (of_opt_str (billing_account args))) true false;;; ret tt
   else ret tt);;;
  (* 3. Reset SA key creation org policy (best-effort) *)
  print "  Attempting to reset SA key creation policy (best-effort)...";;;
  reset <- subprocess_run w
             ("gcloud org-policies reset constraints/iam.disableServiceAccountKeyCreation --project "
              +:+ project_id) (os_environ w) false true;;
  let reset_ok := returncode reset =? 0 in
  (if reset_ok then
     print "  ✅ SA key creation policy reset."
   else
     print "  ⚠️  Could not reset SA key policy — will try key creation anyway, may fall back to WIF.");;;
  (* 4. Enable APIs *)
  print "  Enabling APIs...";;;
  run ("gcloud services enable cloudresourcemanager.googleapis.com iamcredentials.googleapis.com "
       +:+ "orgpolicy.googleapis.com compute.googleapis.com apigee.googleapis.com --project "
       +:+ project_id) true false;;;
  (* 5. Create SA (idempotent) *)
  sa <- exists_ (sa_describe sa_email project_id);;
  (if (sa : bool) then
     print "  ✅ Service account already exists."
   else
     print ("  Creating service account " +:+ sa_name +:+ "...");;;
     run (sa_create sa_name project_id) true false;;; ret tt);;;
  (* 6. Grant Owner role *)
  print "  Granting Owner role...";;;
  run ("gcloud projects add-iam-policy-binding " +:+ project_id +:+ " "
       +:+ "--member='serviceAccount:" +:+ sa_email +:+ "' --role='roles/owner'")
      true false;;;
  (* 7. Try SA key export; fall back to WIF if blocked *)
  print ("  Exporting SA key to " +:+ KEY_FILE +:+ "...");;;
  key_result <- subprocess_run w (key_export sa_email project_id)
                  (os_environ w) false true;;
  if returncode key_result =? 0 then
    print ("  ✅ SA key saved to " +:+ KEY_FILE +:+ " (gitignored).");;;
    print "  Pushing GCP_SA_KEY to GitHub...";;;
    run ("gh secret set GCP_SA_KEY < " +:+ KEY_FILE) true false;;;
    run ("gh secret set GCP_PROJECT_ID --body '" +:+ project_id +:+ "'") true false;;;
    print (nl +:+ "✅ Done (key file mode).");;;
    print ("   " +:+ KEY_FILE +:+ " saved locally (gitignored).");;;
    print "   GitHub secrets set: GCP_SA_KEY, GCP_PROJECT_ID"
  else
    print "  ⚠️  Key creation blocked — setting up Workload Identity Federation instead.";;;
    setup_wif project_id sa_email github_repo;;;
    print (nl +:+ "✅ Done (WIF mode — no key file).");;;
    print "   For local runs: gcloud auth application-default login";;;
    print ("   export GCP_PROJECT_ID=" +:+ project_id);;;
    print ("   export GCP_SA_EMAIL=" +:+ sa_email).
End Init.
End Init.

(** ** Concrete surroundings for the examples *)

Module Demo.
Definition quoted (s : string) : string := dq +:+ s +:+ dq.

(** The text [{"project_id": "<id>"}]. *)
Definition key_document (id : string) : string :=
  "{" +:+ quoted "project_id" +:+ ": " +:+ quoted id +:+ "}".

(** The documents the examples use, each with the value [json.loads]
    gives for it; any other text is taken as malformed. *)
Definition documents : list (string * json) :=
  [ (key_document "demo-123", JObj [("project_id", JStr "demo-123")]);
    (key_document "demo-xyz", JObj [("project_id", JStr "demo-xyz")]);
    (key_document "", JObj [("project_id", JStr "")]);
    ("{" +:+ quoted "project_id" +:+ ": null}", JObj [("project_id", JNull)]);
    ("{" +:+ quoted "type" +:+ ": " +:+ quoted "service_account" +:+ "}",
     JObj [("type", JStr "service_account")]);
    ("{}", JObj []) ].

Definition loads (s : string) : option json :=
  snd <$> List.find (fun d => String.eqb s d.1) documents.

(** [json.dumps] on the objects above. *)
Definition dumps (v : json) : string :=
  match v with
  | JObj [(k, JStr s)] => "{" +:+ quoted k +:+ ": " +:+ quoted s +:+ "}"
  | JObj [(k, JNull)] => "{" +:+ quoted k +:+ ": null}"
  | JNull => "null"
  | _ => "{}"
  end.

(** [str] on the non-string values the examples format. *)
Definition str (v : json) : string :=
  match v with
  | JBool true => "True"
  | JBool false => "False"
  | JStr s => s
  | _ => "None"
  end.

Definition is_space (c : ascii) : bool :=
  let n := nat_of_ascii c in
  ((n =? 32) || ((9 <=? n) && (n <=? 13)) || ((28 <=? n) && (n <=? 31)))%nat.

Fixpoint lstrip (s : string) : string :=
  match s with
  | String c rest => if is_space c then lstrip rest else s
  | EmptyString => s
  end.

(** [str.strip] for ASCII text. *)
Definition strip (s : string) : string :=
  String.rev (lstrip (String.rev (lstrip s))).

(** An outside world without state: [answer] gives the exit status and
    output of each command, and no command touches the file system. *)
Definition world (environ : gmap string string)
    (answer : string -> Completed) : World :=
  mkWorld unit (fun x fs cmd _ => (answer cmd, x, fs))
          environ "/work" (fun _ => "/tmp/tmpk3y0a1b2.json") (fun i => i)
          loads dumps str strip.

Definition succeed : Completed := mkCompleted 0 "".
Definition fail : Completed := mkCompleted 1 "".

(** Every command succeeds, except those starting with [p]. *)
Definition all_but (p : string) (cmd : string) : Completed :=
  if starts_with p cmd then fail else succeed.
End Demo.

(** ** Observations on a run *)

(** The results of the external commands of a trace whose text starts with
    [p], in the order they were run. *)
Fixpoint calls (p : string) (tr : list event) : list Completed :=
  match tr with
  | [] => []
  | Subprocess cmd _ _ _ res :: rest =>
      if starts_with p cmd then res :: calls p rest else calls p rest
  | Print _ :: rest => calls p rest
  end.

(** The same, for the calls made without [check=True] (the probes). *)
Fixpoint unchecked_calls (p : string) (tr : list event) : list Completed :=
  match tr with
  | [] => []
  | Subprocess cmd _ false _ res :: rest =>
      if starts_with p cmd then res :: unchecked_calls p rest
      else unchecked_calls p rest
  | _ :: rest => unchecked_calls p rest
  end.

(** The command lines of a trace. *)
Fixpoint commands (tr : list event) : list string :=
  match tr with
  | [] => []
  | Subprocess cmd _ _ _ _ :: rest => cmd :: commands rest
  | Print _ :: rest => commands rest
  end.

(** The lines printed. *)
Fixpoint printed (tr : list event) : list string :=
  match tr with
  | [] => []
  | Print line :: rest => line :: printed rest
  | Subprocess _ _ _ _ _ :: rest => printed rest
  end.

(** Every command run with [check=True] returned zero. *)
Fixpoint checked_ok (tr : list event) : Prop :=
  match tr with
  | [] => True
  | Subprocess _ _ true _ res :: rest => returncode res = 0 /\ checked_ok rest
  | _ :: rest => checked_ok rest
  end.

(** A command run with [check=True] that returns non-zero is the last thing
    the run does (nothing follows it in the trace), and the run ends with
    its [CalledProcessError]. *)
Fixpoint failure_is_fatal {A} (tr : list event) (o : outcome A) : Prop :=
  match tr with
  | [] => True
  | Subprocess cmd _ true _ res :: rest =>
      (returncode res <> 0 ->
       length rest = 0%nat /\
       o = Raise (CalledProcessError cmd (returncode res)))
      /\ failure_is_fatal rest o
  | _ :: rest => failure_is_fatal rest o
  end.

(** The text [min-cicd-sample-[a-z0-9]{6}]. *)
Definition lower_alnum (c : ascii) : bool :=
  let n := nat_of_ascii c in
  (((97 <=? n) && (n <=? 122)) || ((48 <=? n) && (n <=? 57)))%nat.

Fixpoint all_chars (f : ascii -> bool) (s : string) : bool :=
  match s with
  | EmptyString => true
  | String c rest => f c && all_chars f rest
  end.

Definition generated_id (s : string) : Prop :=
  exists suffix,
    s = "min-cicd-sample-" +:+ suffix /\
    String.length suffix = 6%nat /\
    all_chars lower_alnum suffix = true.

(** The resources the initialization probes before creating them, with the
    start of their describe and create commands. *)
Inductive resource : Type := Project | ServiceAccount | Pool | Provider.

Definition describe_prefix (r : resource) : string :=
  match r with
  | Project => "gcloud projects describe "
  | ServiceAccount => "gcloud iam service-accounts describe "
  | Pool => "gcloud iam workload-identity-pools describe "
  | Provider => "gcloud iam workload-identity-pools providers describe "
  end.

Definition create_prefix (r : resource) : string :=
  match r with
  | Project => "gcloud projects create "
  | ServiceAccount => "gcloud iam service-accounts create "
  | Pool => "gcloud iam workload-identity-pools create "
  | Provider => "gcloud iam workload-identity-pools providers create-oidc "
  end.

(** The exit statuses of the probes of [r], and of its create commands. *)
Definition probes (r : resource) (tr : list event) : list Z :=
  map returncode (unchecked_calls (describe_prefix r) tr).
Definition creates (r : resource) (tr : list event) : list Z :=
  map returncode (calls (create_prefix r) tr).

Definition key_exports (tr : list event) : list Z :=
  map returncode (calls "gcloud iam service-accounts keys create " tr).
(** [setup_wif] starts with the probe of the pool: one per invocation. *)
Definition wif_invocations (tr : list event) : nat :=
  length (probes Pool tr).
Definition key_publishes (tr : list event) : list Z :=
  map returncode (calls "gh secret set GCP_SA_KEY " tr).
Definition project_id_publishes (tr : list event) : list Z :=
  map returncode (calls "gh secret set GCP_PROJECT_ID " tr).

(** * Reasoning about runs *)

(** [wp m Q st]: running [m] from [st] ends in an outcome and a state that
    satisfy [Q].  Computations are total functions, so this is a statement
    about the one run there is. *)
Definition wp {w A} (m : M w A) (Q : outcome A -> state w -> Prop)
    (st : state w) : Prop :=
  Q (m st).1 (m st).2.

(** The state after an external command. *)
Definition ran {w} (st : state w) (x' : extern w) (fs' : gmap string node)
    (e : event) : state w :=
  mkState w x' fs' (trace w st ++ [e]) (drawn w st).


(** * Statements *)

Definition with_files {w} (fs : gmap string node) (st : state w) : state w :=
  mkState w (ext w st) fs (trace w st) (drawn w st).

Definition arg_absent (args : Init.Args) : Prop :=
  Init.project_id args = None \/ Init.project_id args = Some "".

Definition missing_empty_or_null (field : option json) : Prop :=
  field = None \/ field = Some (JStr "") \/ field = Some JNull.


(** The demo inputs *)
Definition no_answer : string -> Completed := fun _ => Demo.succeed.
Definition quiet : World := Demo.world ∅ no_answer.
Definition key_file (content : string) : gmap string node :=
  <[Init.KEY_FILE := File content]> ∅.

Definition claimed_project_id_precedence : Prop :=
  forall (w : World) (args : Init.Args) (st : state w),
    let r := (Init.resolve_project_id w args st).1 in
    (forall p, Init.project_id args = Some p -> r = Ok (JStr p)) /\
    (Init.project_id args = None ->
     forall content entries v,
       files w st !! Init.KEY_FILE = Some (File content) ->
       json_loads w content = Some (JObj entries) ->
       assoc "project_id" entries = Some v ->
       r = Ok v) /\
    (Init.project_id args = None ->
     (files w st !! Init.KEY_FILE = None \/
      exists content entries,
        files w st !! Init.KEY_FILE = Some (File content) /\
        json_loads w content = Some (JObj entries) /\
        assoc "project_id" entries = None) ->
     exists s, r = Ok (JStr s) /\ generated_id s).


(** *** Credential resolution ([deploy.py]) *)

Definition GAC : string := "GOOGLE_APPLICATION_CREDENTIALS".
Definition GISA : string := "GOOGLE_IMPERSONATE_SERVICE_ACCOUNT".
Definition PID : string := "GCP_PROJECT_ID".

(** The four modes, and the one the inputs select: local file, else CI
    key, else impersonation, else ambient. *)
Inductive mode : Type := LocalFile | CiKey | Impersonation | Ambient.

Definition selected (w : World) (fs : gmap string node) : mode :=
  match fs !! "sa-key.json" with
  | Some _ => LocalFile
  | None =>
      match os_environ w !! "GCP_SA_KEY" with
      | Some _ => CiKey
      | None =>
          match os_environ w !! "GCP_SA_EMAIL" with
          | Some _ => Impersonation
          | None => Ambient
          end
      end
  end.

(** The base environment, as the dictionary the resolver starts from. *)
Definition base (w : World) : gmap string json := JStr <$> os_environ w.

Definition has (k : string) (env : gmap string json) : Prop := is_Some (env !! k).

(** The credential invariant as the specification words it: the mode
    decides which of the two variables the context carries, and it never
    carries both. *)
Definition claimed_exclusive_credentials : Prop :=
  forall (w : World) (st : state w) env tmp st',
    Deploy.setup_credentials w st = (Ok (env, tmp), st') ->
    match selected w (files w st) with
    | LocalFile | CiKey => has GAC env /\ ~ has GISA env
    | Impersonation => has GISA env /\ ~ has GAC env
    | Ambient => ~ has GAC env /\ ~ has GISA env
    end.

(** The project-id default as the specification words it: every mode
    leaves a project id in the context, and never replaces one of the base
    environment. *)
Definition claimed_project_id_default : Prop :=
  forall (w : World) (st : state w) env tmp st',
    Deploy.setup_credentials w st = (Ok (env, tmp), st') ->
    (os_environ w !! PID = None -> has PID env) /\
    (forall s, os_environ w !! PID = Some s -> env !! PID = Some (JStr s)).

(** The project id of a credential document. *)
Definition project_id_of (w : World) (document : string) (v : json) : Prop :=
  exists creds, json_loads w document = Some creds /\ getitem creds "project_id" = Ok v.

Definition adc_and_email : gmap string string :=
  <["GCP_SA_EMAIL" := "deployer@demo-123.iam.gserviceaccount.com"]>
    (<[GAC := "/home/dev/adc.json"]> ∅).
Definition email_only : gmap string string :=
  <["GCP_SA_EMAIL" := "deployer@demo-123.iam.gserviceaccount.com"]> ∅.
Definition ci_key (document : string) : gmap string string :=
  <["GCP_SA_KEY" := document]> ∅.
Definition ci_key_blank_project : gmap string string :=
  <["GCP_SA_KEY" := Demo.key_document "demo-xyz"]> (<[PID := ""]> ∅).

(** *** The structural check ([check.py]) *)

Definition is_dir (fs : gmap string node) (d : string) : bool :=
  match fs !! d with Some Dir => true | _ => false end.

Definition structure_sound (fs : gmap string node) : Prop :=
  Forall (fun d => fs !! d = Some Dir) Check.required.

(** The exit status as the specification words it: non-zero exactly when a
    required directory is missing. *)
Definition claimed_check_exit : Prop :=
  forall (w : World) (x : extern w) (fs : gmap string node),
    exit_status (Check.main w (initial w x fs)).1 <> 0 <-> ~ structure_sound fs.

(** The credential document [load_credentials] reads: the local file, else
    the CI variable. *)
Definition credentials_document (w : World) (fs : gmap string node)
    (document : string) : Prop :=
  fs !! "sa-key.json" = Some (File document) \/
  (fs !! "sa-key.json" = None /\ os_environ w !! "GCP_SA_KEY" = Some document).

Definition curl_command (w : World) (token : string) (project_id : json) : string :=
  "curl -s -o /tmp/apigee_resp.json -w '%{http_code}' "
  +:+ "-H 'Authorization: Bearer " +:+ token +:+ "' "
  +:+ ("https://apigee.googleapis.com/v1/organizations/" +:+ fmt w project_id).

(** When a token is available and the API answers 200, the reply [curl]
    stored is a JSON object. *)
Definition reply_readable (w : World) (x : extern w) (fs : gmap string node)
    (project_id : json) : Prop :=
  let '(token, x1, fs1) :=
    shell w x fs "gcloud auth print-access-token" (os_environ w) in
  returncode token = 0 ->
  let '(reply, _, fs2) :=
    shell w x1 fs1 (curl_command w (str_strip w (stdout token)) project_id)
          (os_environ w) in
  str_strip w (stdout reply) = "200" ->
  exists body entries,
    fs2 !! "/tmp/apigee_resp.json" = Some (File body) /\
    json_loads w body = Some (JObj entries).

Definition repository : gmap string node :=
  <["terraform" := Dir]> (<["helm" := Dir]> (<["scripts" := Dir]> ∅)).
Definition incomplete_key : string :=
  "{" +:+ Demo.quoted "type" +:+ ": " +:+ Demo.quoted "service_account" +:+ "}".

(** *** The initialization flow ([init.py]) *)

Definition role_grants (tr : list event) : list Z :=
  map returncode (calls "gcloud projects add-iam-policy-binding " tr).

(** [--billing-account] was given (and is not empty). *)
Definition billing_given (args : Init.Args) : bool :=
  truthy (of_opt_str (Init.billing_account args)).

(** The gate as the specification words it: a resource is created exactly
    when its probe reported absence. *)
Definition claimed_probe_gates_create : Prop :=
  forall (w : World) (args : Init.Args) (x : extern w) (fs : gmap string node),
    let r := Init.main w args (initial w x fs) in
    let tr := trace w r.2 in
    forall res : resource,
      creates res tr <> [] <-> exists rc, probes res tr = [rc] /\ rc <> 0.

(** The key-export decision as the specification words it. *)
Definition claimed_key_export_flow : Prop :=
  forall (w : World) (args : Init.Args) (x : extern w) (fs : gmap string node),
    let r := Init.main w args (initial w x fs) in
    let tr := trace w r.2 in
    length (key_exports tr) = 1%nat /\
    (key_exports tr = [0] ->
     key_publishes tr = [0] /\ project_id_publishes tr = [0] /\
     exit_status r.1 = 0) /\
    (forall rc, key_exports tr = [rc] -> rc <> 0 ->
     wif_invocations tr = 1%nat /\ length (key_exports tr) = 1%nat /\
     (checked_ok tr -> exit_status r.1 = 0)) /\
    failure_is_fatal tr r.1.

Definition new_project : Init.Args :=
  Init.parse_args (Some "demo-123") (Some "0X0X0X-0X0X0X-0X0X0X") None.
Definition no_billing : Init.Args :=
  Init.parse_args (Some "demo-123") None None.
Section Rules.
Context {w : World}.
Implicit Types st : state w.

Lemma wp_ret {A} (a : A) Q st : Q (Ok a) st -> wp (ret a) Q st.
Proof. exact id. Qed.

Lemma wp_raise {A} e (Q : outcome A -> _) st :
  Q (Raise e) st -> wp (raise e) Q st.
Proof. exact id. Qed.

Lemma wp_sys_exit {A} code (Q : outcome A -> _) st :
  Q (Raise (SystemExit code)) st -> wp (sys_exit code) Q st.
Proof. exact id. Qed.

Lemma wp_bind {A B} (m : M w A) (k : A -> M w B) Q st :
  wp m (fun o st' =>
          match o with
          | Ok a => wp (k a) Q st'
          | Raise e => Q (Raise e) st'
          end) st ->
  wp (bind m k) Q st.
Proof.
  unfold wp, bind. destruct (m st) as [[a|e] st']; simpl; auto.
Qed.

Lemma bind_ok {A B} (m : M w A) (k : A -> M w B) st a st' :
  m st = (Ok a, st') -> bind m k st = k a st'.
Proof. intros H. unfold bind. now rewrite H. Qed.

Lemma wp_print line Q st :
  Q (Ok tt) (log (Print line) st) -> wp (print line) Q st.
Proof. exact id. Qed.

Lemma wp_lift {A} (o : outcome A) Q st : Q o st -> wp (lift o) Q st.
Proof. exact id. Qed.

Lemma wp_path_exists p (Q : outcome bool -> state w -> Prop) st :
  Q (Ok (match files w st !! p with Some _ => true | None => false end)) st ->
  wp (path_exists p) Q st.
Proof. exact id. Qed.

Lemma wp_json_load p (Q : outcome json -> state w -> Prop) st :
  match files w st !! p with
  | Some (File content) =>
      match json_loads w content with
      | Some v => Q (Ok v) st
      | None => Q (Raise JSONDecodeError) st
      end
  | Some Dir => Q (Raise (IsADirectoryError p)) st
  | None => Q (Raise (FileNotFoundError p)) st
  end ->
  wp (json_load w p) Q st.
Proof.
  unfold wp, json_load, bind, read_file, loads.
  destruct (files w st !! p) as [[content|]|]; try exact id.
  destruct (json_loads w content); exact id.
Qed.

Lemma wp_if {A} (b : bool) (m1 m2 : M w A) Q st :
  (b = true -> wp m1 Q st) -> (b = false -> wp m2 Q st) ->
  wp (if b then m1 else m2) Q st.
Proof. destruct b; auto. Qed.

(** A call without [check]: it returns whatever the command answers. *)
Lemma wp_unchecked cmd env capture Q st :
  (forall out x' fs',
      Q (Ok (mkCompleted 0 out))
        (ran st x' fs' (Subprocess cmd env false capture (mkCompleted 0 out)))) ->
  (forall rc out x' fs', rc <> 0 -> (rc =? 0) = false ->
      Q (Ok (mkCompleted rc out))
        (ran st x' fs' (Subprocess cmd env false capture (mkCompleted rc out)))) ->
  wp (subprocess_run w cmd env false capture) Q st.
Proof.
  intros Hz Hnz. unfold wp, subprocess_run.
  destruct (shell w (ext w st) (files w st) cmd env) as [[[rc out] x'] fs'].
  simpl. destruct (Z.eqb_spec rc 0) as [->|Hrc].
  - apply Hz.
  - apply Hnz; [assumption | now apply Z.eqb_neq].
Qed.

Lemma wp_unchecked_any cmd env capture Q st :
  (forall res x' fs',
      Q (Ok res) (ran st x' fs' (Subprocess cmd env false capture res))) ->
  wp (subprocess_run w cmd env false capture) Q st.
Proof.
  intros H. unfold wp, subprocess_run.
  destruct (shell w (ext w st) (files w st) cmd env) as [[res x'] fs'].
  apply H.
Qed.

(** Two branches that only print: the line does not matter. *)
Lemma wp_if_print (b : bool) line1 line2 Q st :
  (forall line, Q (Ok tt) (log (Print line) st)) ->
  wp (if b then print line1 else print line2) Q st.
Proof. intros H. destruct b; apply wp_print, H. Qed.

(** A call with [check=True]: it returns on status zero and raises
    otherwise. *)
Lemma wp_checked cmd env capture Q st :
  (forall out x' fs',
      Q (Ok (mkCompleted 0 out))
        (ran st x' fs' (Subprocess cmd env true capture (mkCompleted 0 out)))) ->
  (forall rc out x' fs', rc <> 0 ->
      Q (Raise (CalledProcessError cmd rc))
        (ran st x' fs' (Subprocess cmd env true capture (mkCompleted rc out)))) ->
  wp (subprocess_run w cmd env true capture) Q st.
Proof.
  intros Hz Hnz. unfold wp, subprocess_run.
  destruct (shell w (ext w st) (files w st) cmd env) as [[[rc out] x'] fs'].
  simpl. destruct (Z.eqb_spec rc 0) as [->|Hrc].
  - apply Hz.
  - now apply Hnz.
Qed.

Lemma wp_exists_ cmd (Q : outcome bool -> state w -> Prop) st :
  (forall out x' fs',
      Q (Ok true)
        (ran st x' fs'
           (Subprocess cmd (os_environ w) false true (mkCompleted 0 out)))) ->
  (forall rc out x' fs', rc <> 0 ->
      Q (Ok false)
        (ran st x' fs'
           (Subprocess cmd (os_environ w) false true (mkCompleted rc out)))) ->
  wp (Init.exists_ w cmd) Q st.
Proof.
  intros Hz Hnz. unfold Init.exists_. apply wp_bind, wp_unchecked.
  - intros. apply wp_ret. apply Hz.
  - intros rc out x' fs' Hrc Hb. apply wp_ret. simpl. rewrite Hb. now apply Hnz.
Qed.

Lemma wp_run cmd (capture : bool) (Q : outcome json -> state w -> Prop) st :
  (forall out x' fs',
      Q (Ok (if capture then JStr (str_strip w out) else JNull))
        (ran st x' fs'
           (Subprocess cmd (os_environ w) true capture (mkCompleted 0 out)))) ->
  (forall rc out x' fs', rc <> 0 ->
      Q (Raise (CalledProcessError cmd rc))
        (ran st x' fs'
           (Subprocess cmd (os_environ w) true capture (mkCompleted rc out)))) ->
  wp (Init.run w cmd true capture) Q st.
Proof.
  intros Hz Hnz. unfold Init.run. apply wp_bind, wp_checked.
  - intros. apply wp_ret. apply Hz.
  - intros. now apply Hnz.
Qed.

(** The same rules, for a command followed by the rest of the program. *)
Lemma wp_bind_print {B} line (k : unit -> M w B) Q st :
  wp (k tt) Q (log (Print line) st) -> wp (bind (print line) k) Q st.
Proof. intros H. apply wp_bind, wp_print. exact H. Qed.

Lemma wp_bind_if_print {B} (b : bool) line1 line2 (k : unit -> M w B) Q st :
  (forall line, wp (k tt) Q (log (Print line) st)) ->
  wp (bind (if b then print line1 else print line2) k) Q st.
Proof. intros H. apply wp_bind, wp_if_print. exact H. Qed.

Lemma wp_bind_exists_ {B} cmd (k : bool -> M w B) Q st :
  (forall out x' fs',
      wp (k true) Q
        (ran st x' fs'
           (Subprocess cmd (os_environ w) false true (mkCompleted 0 out)))) ->
  (forall rc out x' fs', rc <> 0 ->
      wp (k false) Q
        (ran st x' fs'
           (Subprocess cmd (os_environ w) false true (mkCompleted rc out)))) ->
  wp (bind (Init.exists_ w cmd) k) Q st.
Proof. intros Hz Hnz. apply wp_bind, wp_exists_; assumption. Qed.

Lemma wp_bind_run {B} cmd (capture : bool) (k : json -> M w B) Q st :
  (forall out x' fs',
      wp (k (if capture then JStr (str_strip w out) else JNull)) Q
        (ran st x' fs'
           (Subprocess cmd (os_environ w) true capture (mkCompleted 0 out)))) ->
  (forall rc out x' fs', rc <> 0 ->
      Q (Raise (CalledProcessError cmd rc))
        (ran st x' fs'
           (Subprocess cmd (os_environ w) true capture (mkCompleted rc out)))) ->
  wp (bind (Init.run w cmd true capture) k) Q st.
Proof. intros Hz Hnz. apply wp_bind, wp_run; assumption. Qed.

(** A call without [check] whose status the program only reports. *)
Lemma wp_bind_unchecked_any {B} cmd env capture (k : Completed -> M w B) Q st :
  (forall res x' fs',
      wp (k res) Q (ran st x' fs' (Subprocess cmd env false capture res))) ->
  wp (bind (subprocess_run w cmd env false capture) k) Q st.
Proof. intros H. apply wp_bind, wp_unchecked_any. exact H. Qed.

(** A call without [check] on whose status the program branches. *)
Lemma wp_bind_unchecked_if {B} cmd env capture (m1 m2 : Completed -> M w B) Q st :
  (forall out x' fs',
      wp (m1 (mkCompleted 0 out)) Q
        (ran st x' fs' (Subprocess cmd env false capture (mkCompleted 0 out)))) ->
  (forall rc out x' fs', rc <> 0 ->
      wp (m2 (mkCompleted rc out)) Q
        (ran st x' fs' (Subprocess cmd env false capture (mkCompleted rc out)))) ->
  wp (bind (subprocess_run w cmd env false capture)
           (fun res => if returncode res =? 0 then m1 res else m2 res)) Q st.
Proof.
  intros Hz Hnz. apply wp_bind, wp_unchecked.
  - intros. apply Hz.
  - intros rc out x' fs' Hrc Hb. cbn [returncode]. rewrite Hb. now apply Hnz.
Qed.
End Rules.

(** * Project-id resolution ([init.py]) *)

Section Resolve.
Context (w : World).
Implicit Types st : state w.

Lemma alphabet_lower_alnum i :
  lower_alnum (nth (i mod length Init.alphabet)%nat Init.alphabet "000"%char) = true.
Proof.
  assert (H : (i mod length Init.alphabet < length Init.alphabet)%nat)
    by (apply Nat.mod_upper_bound; discriminate).
  revert H. generalize (i mod length Init.alphabet)%nat as j. intros j.
  change (length Init.alphabet) with 36%nat.
  do 36 (destruct j as [|j]; [reflexivity|]). lia.
Qed.

Lemma choices_generated k i :
  String.length (choices w Init.alphabet k i) = k /\
  all_chars lower_alnum (choices w Init.alphabet k i) = true.
Proof.
  revert i. induction k as [|k IH]; intros i; cbn [choices all_chars String.length].
  - split; reflexivity.
  - destruct (IH (S i)) as [Hl Ha]. split.
    + now rewrite Hl.
    + rewrite alphabet_lower_alnum, Ha. reflexivity.
Qed.

Lemma generate_project_id_run st :
  Init.generate_project_id w st =
  (Ok (JStr ("min-cicd-sample-" +:+ choices w Init.alphabet 6 (drawn w st))),
   mkState w (ext w st) (files w st)
     (trace w st ++ [Print ("Auto-generated project ID: " +:+ "min-cicd-sample-"
                             +:+ choices w Init.alphabet 6 (drawn w st))])
     (drawn w st + 6)%nat).
Proof. reflexivity. Qed.

Lemma generate_project_id_generated st :
  exists s, (Init.generate_project_id w st).1 = Ok (JStr s) /\ generated_id s.
Proof.
  rewrite generate_project_id_run. eexists. split; [reflexivity|].
  exists (choices w Init.alphabet 6 (drawn w st)).
  split; [reflexivity|]. apply choices_generated.
Qed.

Lemma truthy_arg_absent args :
  arg_absent args -> truthy (of_opt_str (Init.project_id args)) = false.
Proof. intros [-> | ->]; reflexivity. Qed.

Lemma truthy_arg_present p : p <> "" -> truthy (JStr p) = true.
Proof. destruct p; [congruence | reflexivity]. Qed.

Lemma resolve_no_file args st :
  arg_absent args -> files w st !! Init.KEY_FILE = None ->
  Init.resolve_project_id w args st = Init.generate_project_id w st.
Proof.
  intros Ha Hf. unfold Init.resolve_project_id.
  rewrite (truthy_arg_absent _ Ha).
  unfold bind at 1, path_exists. rewrite Hf. reflexivity.
Qed.

Lemma resolve_file args st content entries :
  arg_absent args ->
  files w st !! Init.KEY_FILE = Some (File content) ->
  json_loads w content = Some (JObj entries) ->
  Init.resolve_project_id w args st =
  match assoc "project_id" entries with
  | Some v =>
      if truthy v
      then (Ok v, log (Print ("Using project ID from existing " +:+ Init.KEY_FILE
                              +:+ ": " +:+ fmt w v)) st)
      else Init.generate_project_id w st
  | None => Init.generate_project_id w st
  end.
Proof.
  intros Ha Hf Hj. unfold Init.resolve_project_id.
  rewrite (truthy_arg_absent _ Ha).
  unfold bind at 1, path_exists. rewrite Hf.
  unfold bind at 1, json_load, bind at 1, read_file. rewrite Hf.
  unfold loads. rewrite Hj. unfold ret at 1.
  unfold bind at 1, lift, dict_get.
  destruct (assoc "project_id" entries) as [v|]; [|reflexivity].
  destruct (truthy v); reflexivity.
Qed.
End Resolve.

Lemma project_id_precedence_counterexample : ~ claimed_project_id_precedence.
Proof.
  intros H.
  destruct (H quiet (Init.parse_args None None None)
              (initial quiet tt (key_file (Demo.key_document ""))))
    as (_ & Hfile & _).
  specialize (Hfile eq_refl (Demo.key_document "") [("project_id", JStr "")]
                (JStr "") eq_refl eq_refl eq_refl).
  vm_compute in Hfile. discriminate Hfile.
Qed.

(** C4, amended.  Project-id resolution returns the positional argument
    when one is given and not empty; else the [project_id] of the local
    credential file, exactly, when the file is a JSON object whose
    [project_id] is a non-empty value; else, the file being absent or its
    [project_id] missing or empty, a fresh id of the form
    [min-cicd-sample-] followed by six characters of [a-z0-9]. *)
Theorem resolve_project_id_precedence (w : World) (args : Init.Args) (st : state w) :
  let r := (Init.resolve_project_id w args st).1 in
  (forall p, Init.project_id args = Some p -> p <> "" -> r = Ok (JStr p)) /\
  (arg_absent args ->
   forall content entries v,
     files w st !! Init.KEY_FILE = Some (File content) ->
     json_loads w content = Some (JObj entries) ->
     assoc "project_id" entries = Some v ->
     truthy v = true ->
     r = Ok v) /\
  (arg_absent args ->
   (files w st !! Init.KEY_FILE = None \/
    exists content entries,
      files w st !! Init.KEY_FILE = Some (File content) /\
      json_loads w content = Some (JObj entries) /\
      forall v, assoc "project_id" entries = Some v -> truthy v = false) ->
   exists s, r = Ok (JStr s) /\ generated_id s).
Proof.
  intros r. subst r. repeat split.
  - intros p Hp Hne. unfold Init.resolve_project_id. rewrite Hp.
    cbn [of_opt_str]. rewrite (truthy_arg_present p Hne). reflexivity.
  - intros Ha content entries v Hf Hj Hv Ht.
    rewrite (resolve_file w args st content entries Ha Hf Hj), Hv, Ht. reflexivity.
  - intros Ha [Hf | (content & entries & Hf & Hj & Hv)].
    + rewrite (resolve_no_file w args st Ha Hf). apply generate_project_id_generated.
    + rewrite (resolve_file w args st content entries Ha Hf Hj).
      destruct (assoc "project_id" entries) as [v|].
      * rewrite (Hv v eq_refl). apply generate_project_id_generated.
      * apply generate_project_id_generated.
Qed.

Lemma resolve_project_id_precedence_witness :
  (Init.resolve_project_id quiet (Init.parse_args (Some "my-project") None None)
     (initial quiet tt (key_file (Demo.key_document "demo-123")))).1
  = Ok (JStr "my-project") /\
  (Init.resolve_project_id quiet (Init.parse_args None None None)
     (initial quiet tt (key_file (Demo.key_document "demo-123")))).1
  = Ok (JStr "demo-123") /\
  exists s,
    (Init.resolve_project_id quiet (Init.parse_args None None None)
       (initial quiet tt ∅)).1 = Ok (JStr s) /\ generated_id s.
Proof.
  split; [|split].
  - apply (resolve_project_id_precedence quiet
             (Init.parse_args (Some "my-project") None None)
             (initial quiet tt (key_file (Demo.key_document "demo-123")))
             ).
    + reflexivity.
    + discriminate.
  - apply (proj1 (proj2 (resolve_project_id_precedence quiet
             (Init.parse_args None None None)
             (initial quiet tt (key_file (Demo.key_document "demo-123"))))))
      with (content := Demo.key_document "demo-123")
           (entries := [("project_id", JStr "demo-123")]).
    + left; reflexivity.
    + reflexivity.
    + reflexivity.
    + reflexivity.
    + reflexivity.
  - apply (proj2 (proj2 (resolve_project_id_precedence quiet
             (Init.parse_args None None None) (initial quiet tt ∅)))).
    + left; reflexivity.
    + left; reflexivity.
Defined.

(** C10.  When no project id is given on the command line and the local
    credential file is a JSON object whose [project_id] is missing, empty or
    null, resolution does not fail: it returns a fresh generated id, with
    the same result and the same output as when the file is absent. *)
Theorem resolve_project_id_falls_through
    (w : World) (args : Init.Args) (st : state w) content entries :
  arg_absent args ->
  files w st !! Init.KEY_FILE = Some (File content) ->
  json_loads w content = Some (JObj entries) ->
  missing_empty_or_null (assoc "project_id" entries) ->
  let with_file := Init.resolve_project_id w args st in
  let without :=
    Init.resolve_project_id w args (with_files (delete Init.KEY_FILE (files w st)) st) in
  with_file.1 = without.1 /\
  trace w with_file.2 = trace w without.2 /\
  exists s, with_file.1 = Ok (JStr s) /\ generated_id s.
Proof.
  intros Ha Hf Hj Hm with_file without. subst with_file without.
  rewrite (resolve_file w args st content entries Ha Hf Hj).
  rewrite (resolve_no_file w args _ Ha) by apply lookup_delete_eq.
  assert (Hgen : match assoc "project_id" entries with
                 | Some v => if truthy v
                             then (Ok v, log (Print ("Using project ID from existing "
                                    +:+ Init.KEY_FILE +:+ ": " +:+ fmt w v)) st)
                             else Init.generate_project_id w st
                 | None => Init.generate_project_id w st
                 end = Init.generate_project_id w st).
  { destruct Hm as [-> | [-> | ->]]; reflexivity. }
  rewrite Hgen. repeat split.
  apply generate_project_id_generated.
Qed.

Lemma resolve_project_id_falls_through_witness :
  let args := Init.parse_args None None None in
  let st := initial quiet tt
              (key_file ("{" +:+ Demo.quoted "project_id" +:+ ": null}")) in
  (Init.resolve_project_id quiet args st).1 =
  (Init.resolve_project_id quiet args (initial quiet tt ∅)).1 /\
  (Init.resolve_project_id quiet args st).1 = Ok (JStr "min-cicd-sample-abcdef").
Proof.
  intros args st.
  destruct (resolve_project_id_falls_through quiet args st
              ("{" +:+ Demo.quoted "project_id" +:+ ": null}")
              [("project_id", JNull)]) as (Hsame & _ & _).
  - left; reflexivity.
  - reflexivity.
  - reflexivity.
  - right; right; reflexivity.
  - split; [exact Hsame | reflexivity].
Defined.

(** * Credential resolution ([deploy.py]) *)

Section Credentials.
Context (w : World).
Implicit Types st : state w.

Lemma setup_credentials_inv st env tmp st' :
  Deploy.setup_credentials w st = (Ok (env, tmp), st') ->
  match selected w (files w st) with
  | LocalFile =>
      exists content pid,
        files w st !! "sa-key.json" = Some (File content) /\
        project_id_of w content pid /\
        env = Deploy.setdefault PID pid
                (<[GAC := JStr (abspath w "sa-key.json")]> (base w)) /\
        tmp = None /\
        st' = log (Print "Auth: using local sa-key.json") st
  | CiKey =>
      exists key creds pid,
        os_environ w !! "GCP_SA_KEY" = Some key /\
        json_loads w key = Some creds /\
        getitem creds "project_id" = Ok pid /\
        env = Deploy.setdefault PID pid
                (<[GAC := JStr (mkstemp w (files w st))]> (base w)) /\
        tmp = Some (mkstemp w (files w st)) /\
        st' = mkState w (ext w st)
                (<[mkstemp w (files w st) := File (json_dumps w creds)]> (files w st))
                (trace w st ++ [Print "Auth: using GCP_SA_KEY env var (key file mode)"])
                (drawn w st)
  | Impersonation =>
      exists email,
        os_environ w !! "GCP_SA_EMAIL" = Some email /\
        env = <[GISA := JStr email]> (base w) /\
        tmp = None /\
        st' = log (Print ("Auth: ADC + impersonating " +:+ email)) st
  | Ambient =>
      env = base w /\ tmp = None /\
      st' = log (Print "Auth: using ambient credentials (WIF or ADC)") st
  end.
Proof.
  unfold Deploy.setup_credentials, selected.
  unfold bind at 1, path_exists.
  destruct (files w st !! "sa-key.json") as [[content|]|] eqn:Hf.
  - unfold bind at 1, print. unfold bind at 1, json_load, bind at 1, read_file.
    cbn [files log]. rewrite Hf. unfold loads.
    destruct (json_loads w content) as [creds|] eqn:Hj; [|discriminate].
    unfold ret at 1, bind at 1, lift.
    destruct (getitem creds "project_id") as [pid|] eqn:Hp; [|discriminate].
    unfold ret. intros [= <- <- <-]. exists content, pid.
    repeat split; try reflexivity. exists creds. split; assumption.
  - unfold bind at 1, print. unfold bind at 1, json_load, bind at 1, read_file.
    cbn [files log]. rewrite Hf. discriminate.
  - destruct (os_environ w !! "GCP_SA_KEY") as [key|] eqn:Hk.
    + unfold bind at 1, print. unfold bind at 1, loads.
      destruct (json_loads w key) as [creds|] eqn:Hj; [|discriminate].
      unfold ret at 1, bind at 1, write_temp. cbn [files log ext trace drawn].
      unfold bind at 1, lift.
      destruct (getitem creds "project_id") as [pid|] eqn:Hp; [|discriminate].
      unfold ret. intros [= <- <- <-]. exists key, creds, pid.
      repeat split; try reflexivity; assumption.
    + destruct (os_environ w !! "GCP_SA_EMAIL") as [email|] eqn:He.
      * unfold bind, print, ret. intros [= <- <- <-]. exists email.
        repeat split; reflexivity.
      * unfold bind, print, ret. intros [= <- <- <-]. repeat split; reflexivity.
Qed.

Lemma setdefault_lookup_ne k k' v (env : gmap string json) :
  k <> k' -> Deploy.setdefault k v env !! k' = env !! k'.
Proof.
  intros Hne. unfold Deploy.setdefault.
  destruct (env !! k); [reflexivity|]. now rewrite lookup_insert_ne.
Qed.

Lemma setdefault_lookup k v (env : gmap string json) :
  Deploy.setdefault k v env !! k =
  match env !! k with Some old => Some old | None => Some v end.
Proof.
  unfold Deploy.setdefault. destruct (env !! k) eqn:H; [assumption|].
  now rewrite lookup_insert_eq.
Qed.

Lemma base_lookup k : base w !! k = JStr <$> os_environ w !! k.
Proof. apply lookup_fmap. Qed.

(** No mode runs a command: resolution prints one line. *)
Lemma setup_credentials_trace st env tmp st' :
  Deploy.setup_credentials w st = (Ok (env, tmp), st') ->
  exists line, trace w st' = (trace w st ++ [Print line])%list.
Proof.
  intros H. apply setup_credentials_inv in H.
  destruct (selected w (files w st)).
  - destruct H as (? & ? & _ & _ & _ & _ & ->). eexists; reflexivity.
  - destruct H as (? & ? & ? & _ & _ & _ & _ & _ & ->). eexists; reflexivity.
  - destruct H as (? & _ & _ & _ & ->). eexists; reflexivity.
  - destruct H as (_ & _ & ->). eexists; reflexivity.
Qed.

(** A project id of the base environment is in the context unchanged. *)
Lemma setup_credentials_keeps_project_id st env tmp st' s :
  Deploy.setup_credentials w st = (Ok (env, tmp), st') ->
  os_environ w !! PID = Some s -> env !! PID = Some (JStr s).
Proof.
  intros H Hs. apply setup_credentials_inv in H.
  assert (Hb : base w !! PID = Some (JStr s)) by (rewrite base_lookup, Hs; reflexivity).
  destruct (selected w (files w st)).
  - destruct H as (? & ? & _ & _ & -> & _). rewrite setdefault_lookup.
    rewrite lookup_insert_ne by discriminate. now rewrite Hb.
  - destruct H as (? & ? & ? & _ & _ & _ & -> & _). rewrite setdefault_lookup.
    rewrite lookup_insert_ne by discriminate. now rewrite Hb.
  - destruct H as (? & _ & -> & _). now rewrite lookup_insert_ne by discriminate.
  - destruct H as (-> & _). exact Hb.
Qed.
End Credentials.

Lemma exclusive_credentials_counterexample : ~ claimed_exclusive_credentials.
Proof.
  intros H.
  pose (w := Demo.world adc_and_email no_answer).
  specialize (H w (initial w tt ∅) _ _ _ eq_refl).
  change (selected w (files w (initial w tt ∅))) with Impersonation in H.
  destruct H as [_ Hno]. apply Hno.
  exists (JStr "/home/dev/adc.json"). reflexivity.
Qed.

(** C1, amended.  Credential resolution assigns the variable of the mode
    selected by the precedence local file, CI key, impersonation, ambient:
    the credential-file variable in the first two modes (the absolute path of
    the local file, or the temporary file it records for deletion), the
    impersonation variable in the third, nothing in the fourth; the variable
    it does not assign keeps the value of the base environment.  When the
    base environment defines neither variable, the context carries exactly
    the one of the mode, never both. *)
Theorem setup_credentials_exclusive (w : World) (st : state w) env tmp st' :
  Deploy.setup_credentials w st = (Ok (env, tmp), st') ->
  match selected w (files w st) with
  | LocalFile =>
      env !! GAC = Some (JStr (abspath w "sa-key.json")) /\
      env !! GISA = base w !! GISA /\ tmp = None
  | CiKey =>
      env !! GAC = Some (JStr (mkstemp w (files w st))) /\
      env !! GISA = base w !! GISA /\ tmp = Some (mkstemp w (files w st))
  | Impersonation =>
      env !! GISA = JStr <$> os_environ w !! "GCP_SA_EMAIL" /\
      is_Some (os_environ w !! "GCP_SA_EMAIL") /\
      env !! GAC = base w !! GAC /\ tmp = None
  | Ambient =>
      env !! GAC = base w !! GAC /\ env !! GISA = base w !! GISA /\ tmp = None
  end /\
  (os_environ w !! GAC = None -> os_environ w !! GISA = None ->
   match selected w (files w st) with
   | LocalFile | CiKey => has GAC env /\ ~ has GISA env
   | Impersonation => has GISA env /\ ~ has GAC env
   | Ambient => ~ has GAC env /\ ~ has GISA env
   end).
Proof.
  intros H. apply setup_credentials_inv in H.
  assert (Hnone : forall k, os_environ w !! k = None -> ~ is_Some (base w !! k)).
  { intros k Hk [v Hv]. rewrite base_lookup, Hk in Hv. discriminate. }
  unfold has.
  destruct (selected w (files w st)).
  - destruct H as (content & pid & _ & _ & -> & -> & _).
    rewrite !setdefault_lookup_ne by discriminate.
    rewrite lookup_insert_eq, lookup_insert_ne by discriminate.
    split; [auto|]. intros _ Hi. split; [eauto | auto].
  - destruct H as (key & creds & pid & _ & _ & _ & -> & -> & _).
    rewrite !setdefault_lookup_ne by discriminate.
    rewrite lookup_insert_eq, lookup_insert_ne by discriminate.
    split; [auto|]. intros _ Hi. split; [eauto | auto].
  - destruct H as (email & He & -> & -> & _).
    rewrite lookup_insert_eq, lookup_insert_ne by discriminate. rewrite He.
    split; [eauto 6|]. intros Ha _. split; [eauto | auto].
  - destruct H as (-> & -> & _). split; [auto|]. intros Ha Hi. split; auto.
Qed.

Lemma setup_credentials_exclusive_witness :
  let w := Demo.world email_only no_answer in
  let env := <[GISA := JStr "deployer@demo-123.iam.gserviceaccount.com"]> (base w) in
  has GISA env /\ ~ has GAC env.
Proof.
  intros w env.
  exact (proj2 (setup_credentials_exclusive w (initial w tt ∅) env None _ eq_refl)
               eq_refl eq_refl).
Defined.

Lemma project_id_default_counterexample : ~ claimed_project_id_default.
Proof.
  intros H.
  pose (w := Demo.world email_only no_answer).
  specialize (H w (initial w tt ∅) _ _ _ eq_refl).
  destruct H as [Hseed _].
  destruct (Hseed eq_refl) as [v Hv]. vm_compute in Hv. discriminate Hv.
Qed.

(** C9, amended.  A project id of the base environment is never replaced.
    When the base environment has none, the local-file mode and the CI-key
    mode seed it with the [project_id] of the credential document; the
    impersonation mode and the ambient mode have no document to take one
    from and leave the context without a project id. *)
Theorem setup_credentials_project_id_default
    (w : World) (st : state w) env tmp st' :
  Deploy.setup_credentials w st = (Ok (env, tmp), st') ->
  (forall s, os_environ w !! PID = Some s -> env !! PID = Some (JStr s)) /\
  (os_environ w !! PID = None ->
   match selected w (files w st) with
   | LocalFile =>
       exists content pid,
         files w st !! "sa-key.json" = Some (File content) /\
         project_id_of w content pid /\ env !! PID = Some pid
   | CiKey =>
       exists key pid,
         os_environ w !! "GCP_SA_KEY" = Some key /\
         project_id_of w key pid /\ env !! PID = Some pid
   | Impersonation | Ambient => env !! PID = None
   end).
Proof.
  intros H. split.
  - intros s. now apply (setup_credentials_keeps_project_id w st env tmp st').
  - intros Hnone. apply setup_credentials_inv in H.
    assert (Hb : base w !! PID = None) by (rewrite base_lookup, Hnone; reflexivity).
    destruct (selected w (files w st)).
    + destruct H as (content & pid & Hf & Hp & -> & _).
      exists content, pid. repeat split; try assumption.
      rewrite setdefault_lookup, lookup_insert_ne by discriminate. now rewrite Hb.
    + destruct H as (key & creds & pid & Hk & Hj & Hp & -> & _).
      exists key, pid. repeat split; try assumption.
      * exists creds. split; assumption.
      * rewrite setdefault_lookup, lookup_insert_ne by discriminate. now rewrite Hb.
    + destruct H as (email & _ & -> & _).
      now rewrite lookup_insert_ne by discriminate.
    + destruct H as (-> & _). exact Hb.
Qed.

Lemma setup_credentials_project_id_default_witness :
  let w := Demo.world (ci_key (Demo.key_document "demo-xyz")) no_answer in
  exists env tmp st',
    Deploy.setup_credentials w (initial w tt ∅) = (Ok (env, tmp), st') /\
    exists key pid,
      os_environ w !! "GCP_SA_KEY" = Some key /\
      project_id_of w key pid /\ env !! PID = Some pid.
Proof.
  intros w. eexists _, _, _. split; [reflexivity|].
  exact (proj2 (setup_credentials_project_id_default w (initial w tt ∅) _ _ _ eq_refl)
               eq_refl).
Defined.

(** C5.  When credential resolution leaves no project id in the context
    (none, or an empty one), the deploy run prints its diagnostic and exits
    with status 1, and no external command has been run. *)
Theorem deploy_requires_project_id
    (w : World) (x : extern w) (fs : gmap string node) env tmp st1 :
  Deploy.setup_credentials w (initial w x fs) = (Ok (env, tmp), st1) ->
  truthy (default JNull (env !! PID)) = false ->
  let r := Deploy.main w (initial w x fs) in
  r.1 = Raise (SystemExit 1) /\
  exit_status r.1 <> 0 /\
  commands (trace w r.2) = [] /\
  exists auth,
    printed (trace w r.2) =
    [auth; "ERROR: GCP_PROJECT_ID not set.";
     "  Set it with: export GCP_PROJECT_ID=<your-project-id>"].
Proof.
  intros H Hfalsy r.
  assert (Hor : truthy (py_or (default JNull (env !! PID))
                              (of_opt_str (os_environ w !! PID))) = false).
  { unfold py_or. rewrite Hfalsy.
    destruct (os_environ w !! PID) as [s|] eqn:Hs; [|reflexivity].
    rewrite (setup_credentials_keeps_project_id w _ env tmp st1 s H Hs) in Hfalsy.
    exact Hfalsy. }
  destruct (setup_credentials_trace w _ env tmp st1 H) as [auth Htr].
  assert (Hr : r = (Raise (SystemExit 1),
                    log (Print "  Set it with: export GCP_PROJECT_ID=<your-project-id>")
                      (log (Print "ERROR: GCP_PROJECT_ID not set.") st1))).
  { subst r. unfold Deploy.main. unfold bind at 1. rewrite H.
    unfold bind at 1, Deploy.get_project_id. fold PID. rewrite Hor. reflexivity. }
  rewrite Hr. cbn [fst snd log trace]. rewrite Htr.
  repeat split; [discriminate|]. exists auth. reflexivity.
Qed.

Lemma deploy_requires_project_id_witness :
  let w := Demo.world email_only no_answer in
  let r := Deploy.main w (initial w tt ∅) in
  r.1 = Raise (SystemExit 1) /\ commands (trace w r.2) = [].
Proof.
  intros w r.
  pose proof (deploy_requires_project_id w tt ∅) as H.
  specialize (H _ _ _ eq_refl eq_refl).
  destruct H as (Hexit & _ & Hnone & _).
  split; assumption.
Defined.

(** C7, at the failing input: the CI key is given and the project id of the
    environment is the empty string.  The run stops at the project-id check
    with status 1 and the temporary key file is still there. *)
Theorem deploy_leaves_temporary_key_file :
  let w := Demo.world ci_key_blank_project no_answer in
  let r := Deploy.main w (initial w tt ∅) in
  r.1 = Raise (SystemExit 1) /\
  files w r.2 !! "/tmp/tmpk3y0a1b2.json" = Some (File (Demo.key_document "demo-xyz")).
Proof. vm_compute. split; reflexivity. Qed.

(** * The structural check ([check.py]) *)

Section Structure.
Context (w : World).
Implicit Types st : state w.

Lemma check_dirs_run ds ok st :
  exists tr,
    Check.check_dirs w ds ok st =
    (Ok (ok && forallb (is_dir (files w st)) ds),
     mkState w (ext w st) (files w st) (trace w st ++ tr) (drawn w st)) /\
    commands tr = [].
Proof.
  revert ok st. induction ds as [|d ds IH]; intros ok st.
  - exists []. rewrite app_nil_r, andb_true_r. destruct st. split; reflexivity.
  - cbn [Check.check_dirs forallb]. unfold bind at 1, path_isdir, is_dir at 1.
    destruct (match files w st !! d with Some Dir => true | _ => false end).
    + unfold bind at 1, print.
      destruct (IH ok (log (Print ("  ✅ " +:+ d +:+ "/")) st)) as (tr & -> & Hc).
      exists (Print ("  ✅ " +:+ d +:+ "/") :: tr). cbn [log ext files trace drawn].
      rewrite <- app_assoc. split; [reflexivity | exact Hc].
    + unfold bind at 1, print.
      destruct (IH false (log (Print ("  ❌ " +:+ d +:+ "/ missing")) st))
        as (tr & -> & Hc).
      exists (Print ("  ❌ " +:+ d +:+ "/ missing") :: tr).
      cbn [log ext files trace drawn]. rewrite <- app_assoc.
      rewrite andb_false_r. split; [reflexivity | exact Hc].
Qed.

Lemma check_structure_run st :
  exists tr,
    Check.check_structure w st =
    (Ok (forallb (is_dir (files w st)) Check.required),
     mkState w (ext w st) (files w st) (trace w st ++ tr) (drawn w st)) /\
    commands tr = [].
Proof.
  unfold Check.check_structure, bind, print.
  destruct (check_dirs_run Check.required true
              (log (Print "Checking repo structure...") st)) as (tr & -> & Hc).
  exists (Print "Checking repo structure..." :: tr).
  cbn [log ext files trace drawn]. rewrite <- app_assoc.
  split; [reflexivity | exact Hc].
Qed.

Lemma structure_sound_dirs fs :
  structure_sound fs <-> forallb (is_dir fs) Check.required = true.
Proof.
  unfold structure_sound. rewrite forallb_forall, Forall_forall.
  split; intros H d Hd.
  - apply list_elem_of_In in Hd. unfold is_dir. now rewrite (H d Hd).
  - apply list_elem_of_In in Hd. specialize (H d Hd). unfold is_dir in H.
    destruct (fs !! d) as [[|]|]; congruence.
Qed.

Lemma commands_app tr1 tr2 : commands (tr1 ++ tr2) = (commands tr1 ++ commands tr2)%list.
Proof.
  induction tr1 as [|[line|cmd env check capture res] tr1 IH]; simpl; congruence.
Qed.
End Structure.

Section CheckMain.
Context (w : World).
Implicit Types st : state w.

Lemma load_credentials_run st document creds :
  credentials_document w (files w st) document ->
  json_loads w document = Some creds ->
  Check.load_credentials w st = (Ok creds, st).
Proof.
  intros [Hf | [Hf Hk]] Hj; unfold Check.load_credentials, bind, path_exists;
    rewrite Hf.
  - unfold json_load, bind, read_file. rewrite Hf. unfold loads. now rewrite Hj.
  - rewrite Hk. unfold loads. now rewrite Hj.
Qed.

Lemma load_credentials_none st :
  files w st !! "sa-key.json" = None -> os_environ w !! "GCP_SA_KEY" = None ->
  Check.load_credentials w st = (Ok JNull, st).
Proof.
  intros Hf Hk. unfold Check.load_credentials, bind, path_exists.
  now rewrite Hf, Hk.
Qed.

Lemma check_apigee_api_returns st pid :
  reply_readable w (ext w st) (files w st) pid ->
  (Check.check_apigee_api w pid st).1 = Ok tt.
Proof.
  unfold reply_readable, Check.check_apigee_api.
  unfold bind at 1, print. unfold bind at 1, subprocess_run.
  cbn [log ext files trace drawn].
  destruct (shell w (ext w st) (files w st) "gcloud auth print-access-token"
              (os_environ w)) as [[[rc out] x1] fs1].
  cbn [andb returncode stdout]. intros Hreply.
  destruct (Z.eqb_spec rc 0) as [->|Hrc]; cbn [negb]; [|reflexivity].
  specialize (Hreply eq_refl). unfold curl_command in Hreply.
  unfold bind at 1, subprocess_run. cbn [ext files trace drawn andb].
  destruct (shell w x1 fs1 _ (os_environ w)) as [[[rc' out'] x2] fs2].
  cbn [returncode stdout] in *.
  destruct (String.eqb_spec (str_strip w out') "200") as [H200|_].
  - destruct (Hreply H200) as (body & entries & Hf & Hj).
    unfold bind at 1, json_load, bind at 1, read_file. cbn [files].
    rewrite Hf. unfold loads. rewrite Hj. unfold ret at 1.
    unfold bind at 1, lift, dict_get.
    destruct (assoc "name" entries); reflexivity.
  - destruct (String.eqb (str_strip w out') "404"); reflexivity.
Qed.
End CheckMain.

Lemma check_exit_counterexample : ~ claimed_check_exit.
Proof.
  intros H.
  destruct (H quiet tt (<["sa-key.json" := File incomplete_key]> repository))
    as [Hfails _].
  apply Hfails.
  - vm_compute. discriminate.
  - repeat constructor.
Qed.

(** C8, amended.  The check exits with status 1, before any command, when
    a required directory is missing.  When all are present it exits zero
    whenever there are no credentials, the credential document is an empty
    value, or the document has a [project_id] and the reply to a status 200
    is a JSON object: in particular when no token is available and for every
    status other than 200.  (A credential document or reply that cannot be
    read ends the run with an exception.) *)
Theorem check_exit_status (w : World) (x : extern w) (fs : gmap string node) :
  let r := Check.main w (initial w x fs) in
  (~ structure_sound fs ->
   r.1 = Raise (SystemExit 1) /\ commands (trace w r.2) = []) /\
  (structure_sound fs ->
   (fs !! "sa-key.json" = None -> os_environ w !! "GCP_SA_KEY" = None ->
    r.1 = Ok tt) /\
   (forall document creds,
       credentials_document w fs document ->
       json_loads w document = Some creds ->
       truthy creds = false ->
       r.1 = Ok tt) /\
   (forall document creds pid,
       credentials_document w fs document ->
       json_loads w document = Some creds ->
       truthy creds = true ->
       getitem creds "project_id" = Ok pid ->
       reply_readable w x fs pid ->
       r.1 = Ok tt)).
Proof.
  intros r. subst r.
  destruct (check_structure_run w (initial w x fs)) as (tr & Hcs & Hc).
  cbn [initial ext files trace drawn app] in Hcs.
  unfold Check.main. rewrite (bind_ok _ _ _ _ _ Hcs). split.
  - intros Hns. rewrite structure_sound_dirs in Hns.
    apply not_true_is_false in Hns. rewrite Hns. cbn. split; [reflexivity | exact Hc].
  - intros Hs. apply structure_sound_dirs in Hs. rewrite Hs. cbn [negb].
    repeat split.
    + intros Hf Hk. unfold bind at 1.
      rewrite load_credentials_none by assumption. reflexivity.
    + intros document creds Hd Hj Ht. unfold bind at 1.
      rewrite (load_credentials_run w _ document creds) by assumption.
      rewrite Ht. reflexivity.
    + intros document creds pid Hd Hj Ht Hp Hr. unfold bind at 1.
      rewrite (load_credentials_run w _ document creds) by assumption.
      rewrite Ht. unfold bind at 1. unfold bind at 1, lift. rewrite Hp.
      match goal with
      | |- context [Check.check_apigee_api w pid ?st] =>
          pose proof (check_apigee_api_returns w st pid Hr) as Hapi;
          destruct (Check.check_apigee_api w pid st) as [o st2]
      end.
      cbn [fst] in Hapi. subst o. reflexivity.
Qed.

Lemma check_exit_status_witness :
  let w := Demo.world (ci_key (Demo.key_document "demo-xyz")) no_answer in
  (Check.main w (initial w tt repository)).1 = Ok tt /\
  (Check.main w (initial w tt ∅)).1 = Raise (SystemExit 1).
Proof.
  intros w. split.
  - apply (proj2 (check_exit_status w tt repository))
      with (document := Demo.key_document "demo-xyz")
           (creds := JObj [("project_id", JStr "demo-xyz")])
           (pid := JStr "demo-xyz").
    + repeat constructor.
    + right. split; reflexivity.
    + reflexivity.
    + reflexivity.
    + reflexivity.
    + intros _. vm_compute. discriminate.
  - apply (proj1 (check_exit_status w tt ∅)).
    intros H. inversion H as [|? ? Hd _]. discriminate Hd.
Defined.

(** * The initialization flow ([init.py]) *)

Section InitRules.
Context {w : World}.
Implicit Types st : state w.

Lemma by_wp {A} (m : M w A) st (P : outcome A -> list event -> Prop) :
  wp m (fun o st' => P o (trace w st')) st -> P (m st).1 (trace w (m st).2).
Proof. exact id. Qed.

(** Project-id resolution prints one line and returns, or fails reading the
    key file before printing anything; it runs no command. *)
Lemma wp_resolve_project_id args (Q : outcome json -> state w -> Prop) st :
  (forall v line d,
      Q (Ok v) (mkState w (ext w st) (files w st) (trace w st ++ [Print line]) d)) ->
  (forall e,
      e = JSONDecodeError \/ e = AttributeError \/
      e = IsADirectoryError Init.KEY_FILE ->
      Q (Raise e) st) ->
  wp (Init.resolve_project_id w args) Q st.
Proof.
  intros Hok Herr. unfold Init.resolve_project_id.
  assert (Hgen : forall st', st' = st -> wp (Init.generate_project_id w) Q st').
  { intros st' ->. unfold wp. rewrite generate_project_id_run. apply Hok. }
  destruct (truthy (of_opt_str (Init.project_id args))).
  - apply wp_bind, wp_print, wp_ret, Hok.
  - apply wp_bind, wp_path_exists.
    destruct (files w st !! Init.KEY_FILE) as [[content|]|] eqn:Hf;
      [| | now apply Hgen].
    + apply wp_bind, wp_json_load. rewrite Hf.
      destruct (json_loads w content) as [data|]; [| apply Herr; auto].
      apply wp_bind, wp_lift.
      destruct data; try (apply Herr; auto).
      unfold dict_get. destruct (assoc "project_id" entries) as [v|];
        [| now apply Hgen].
      destruct (truthy v); [| now apply Hgen].
      apply wp_bind, wp_print, wp_ret, Hok.
    + apply wp_bind, wp_json_load. rewrite Hf. apply Herr; auto.
Qed.
End InitRules.

Ltac wp_step :=
  lazymatch goal with
  | |- wp (bind (print _) _) _ _ => apply wp_bind_print
  | |- wp (bind (Init.exists_ _ _) _) _ _ =>
      apply wp_bind_exists_; [intros ? ? ? | intros ? ? ? ? ?]
  | |- wp (bind (Init.run _ _ true _) _) _ _ =>
      apply wp_bind_run; [intros ? ? ? | intros ? ? ? ? ?]
  | |- wp (bind (if _ then print _ else print _) _) _ _ =>
      apply wp_bind_if_print; intros ?
  | |- wp (bind (subprocess_run _ _ _ false _) (fun _ => if _ then _ else _)) _ _ =>
      apply wp_bind_unchecked_if; [intros ? ? ? | intros ? ? ? ? ?]
  | |- wp (bind (subprocess_run _ _ _ false _) _) _ _ =>
      apply wp_bind_unchecked_any; intros ? ? ?; cbv zeta
  | |- wp (bind (Init.setup_wif _ _ _ _) _) _ _ => unfold Init.setup_wif
  | |- wp (bind _ _) _ _ => apply wp_bind
  | |- wp (print _) _ _ => apply wp_print
  | |- wp (ret _) _ _ => apply wp_ret
  | |- wp (sys_exit _) _ _ => apply wp_sys_exit
  end.

(** At the end of a path the property is evaluated on the trace. *)
Ltac close_leaf :=
  cbv beta;
  lazymatch goal with
  | |- _ _ _ (trace ?w ?st) =>
      let tr := fresh "tr" in set (tr := trace w st)
  end;
  hnf;
  lazymatch goal with
  | |- forall _ : resource, _ => intros []
  | |- _ => idtac
  end;
  lazy;
  repeat (split || intro);
  solve [ reflexivity | discriminate | congruence | eauto | lia
        | repeat match goal with
                 | H : _ /\ _ |- _ => destruct H
                 | H : ex _ |- _ => destruct H
                 | H : ?a = ?a -> _ |- _ => specialize (H eq_refl)
                 end; first [contradiction | congruence] ].

(** Runs [Init.main] symbolically: the goal is put in [wp] form with the
    property kept folded, the resolved project id and the billing flag are
    abstracted, and every path is closed by [close_leaf]. *)
Ltac init_main_cases w args x fs :=
  unfold billing_given;
  set (r := Init.main w args (initial w x fs));
  pattern (truthy (of_opt_str (Init.billing_account args))), (r.1), (trace w r.2);
  lazymatch goal with
  | |- ?P0 ?b _ _ =>
      let P := fresh "P" in
      set (P := P0); subst r; apply (by_wp _ _ (P b));
      unfold Init.main;
      generalize b; intros billing;
      apply wp_bind, wp_resolve_project_id;
      [ intros resolved line d;
        generalize (fmt w resolved); intros pid;
        destruct billing; cbv beta iota zeta delta [negb];
        repeat wp_step; close_leaf
      | intros e [-> | [-> | ->]]; close_leaf ]
  end.

(** C6.  When the project probe reports absence and no billing account was
    given, the run exits with status 1 having run nothing but the probe, so
    without the project-creation command; the project-creation command is
    run only after a probe that reported absence, with a billing account
    given. *)
Theorem init_project_creation_needs_billing
    (w : World) (args : Init.Args) (x : extern w) (fs : gmap string node) :
  let r := Init.main w args (initial w x fs) in
  let tr := trace w r.2 in
  (forall rc, probes Project tr = [rc] -> rc <> 0 -> billing_given args = false ->
     r.1 = Raise (SystemExit 1) /\ exit_status r.1 <> 0 /\
     creates Project tr = [] /\ length (commands tr) = 1%nat) /\
  (creates Project tr <> [] ->
     (exists rc, probes Project tr = [rc] /\ rc <> 0) /\ billing_given args = true).
Proof.
  intros r tr. subst tr r.
  init_main_cases w args x fs.
Qed.

Lemma init_project_creation_needs_billing_witness :
  let w := Demo.world ∅ (Demo.all_but "gcloud projects describe ") in
  let r := Init.main w no_billing (initial w tt ∅) in
  r.1 = Raise (SystemExit 1) /\ creates Project (trace w r.2) = [].
Proof.
  intros w r.
  destruct (init_project_creation_needs_billing w no_billing tt ∅) as [H _].
  destruct (H 1 eq_refl ltac:(discriminate) eq_refl) as (Hexit & _ & Hnone & _).
  split; assumption.
Defined.

Lemma probe_gates_create_counterexample : ~ claimed_probe_gates_create.
Proof.
  intros H.
  pose (w := Demo.world ∅ (Demo.all_but "gcloud projects describe ")).
  destruct (H w no_billing tt ∅ Project) as [_ Hcreate].
  apply Hcreate.
  - exists 1. split; [reflexivity | discriminate].
  - reflexivity.
Qed.

(** C3, amended.  A probe reports existence exactly when its describe
    command exits with status zero.  In a run each resource is probed at
    most once, and its create command is run exactly when the probe reported
    absence and, for the project, a billing account was given; after a probe
    that reported existence no create command is run. *)
Theorem init_probe_gates_create
    (w : World) (args : Init.Args) (x : extern w) (fs : gmap string node) :
  (forall cmd (st : state w),
      (Init.exists_ w cmd st).1 =
      Ok (returncode (shell w (ext w st) (files w st) cmd (os_environ w)).1.1 =? 0)) /\
  let r := Init.main w args (initial w x fs) in
  let tr := trace w r.2 in
  forall res : resource,
    (length (probes res tr) <= 1)%nat /\
    (creates res tr <> [] <->
     (exists rc, probes res tr = [rc] /\ rc <> 0) /\
     (res = Project -> billing_given args = true)) /\
    (probes res tr = [0] -> creates res tr = []).
Proof.
  split.
  - intros cmd st. unfold Init.exists_, bind, subprocess_run.
    destruct (shell w (ext w st) (files w st) cmd (os_environ w)) as [[res x'] fs'].
    reflexivity.
  - intros r tr. subst tr r.
    init_main_cases w args x fs.
Qed.

Lemma init_probe_gates_create_witness :
  let w := Demo.world ∅ (Demo.all_but "gcloud projects describe ") in
  let r := Init.main w new_project (initial w tt ∅) in
  creates Project (trace w r.2) <> [] /\ creates ServiceAccount (trace w r.2) = [].
Proof.
  intros w r.
  destruct (init_probe_gates_create w new_project tt ∅) as [_ H].
  split.
  - apply (H Project). split.
    + exists 1. split; [reflexivity | discriminate].
    + reflexivity.
  - apply (H ServiceAccount). reflexivity.
Defined.

Lemma key_export_flow_counterexample : ~ claimed_key_export_flow.
Proof.
  intros H.
  pose (w := Demo.world ∅ (Demo.all_but "gh secret set GCP_SA_KEY ")).
  destruct (H w new_project tt ∅) as (_ & Hkey & _).
  destruct (Hkey eq_refl) as (_ & _ & Hexit).
  vm_compute in Hexit. discriminate Hexit.
Qed.

(** C2, amended.  The key export is attempted at most once in a run, and
    exactly once when the role grant before it succeeded.  After an export
    with status zero the fallback is not entered, the key material is
    published and, that done, the project id; the run ends with status zero
    exactly when both publications succeed.  After an export with a non-zero
    status the fallback is entered exactly once, no key material is
    published, and the run ends with status zero exactly when every command
    it must succeed at does.  A failing command of that kind, in the fallback
    or elsewhere, is the last thing the run does: it ends with status 1. *)
Theorem init_key_export_fallback
    (w : World) (args : Init.Args) (x : extern w) (fs : gmap string node) :
  let r := Init.main w args (initial w x fs) in
  let tr := trace w r.2 in
  (length (key_exports tr) <= 1)%nat /\
  (role_grants tr = [0] -> length (key_exports tr) = 1%nat) /\
  (key_exports tr = [0] ->
   wif_invocations tr = 0%nat /\
   length (key_publishes tr) = 1%nat /\
   (key_publishes tr = [0] -> length (project_id_publishes tr) = 1%nat) /\
   (exit_status r.1 = 0 <->
    key_publishes tr = [0] /\ project_id_publishes tr = [0])) /\
  (forall rc, key_exports tr = [rc] -> rc <> 0 ->
   wif_invocations tr = 1%nat /\
   key_publishes tr = [] /\
   (exit_status r.1 = 0 <-> checked_ok tr)) /\
  failure_is_fatal tr r.1 /\
  (exit_status r.1 = 0 \/ exit_status r.1 = 1).
Proof.
  intros r tr. subst tr r.
  init_main_cases w args x fs.
Qed.

Lemma init_key_export_fallback_witness :
  let w := Demo.world ∅ (Demo.all_but "gcloud iam service-accounts keys create ") in
  let r := Init.main w new_project (initial w tt ∅) in
  key_exports (trace w r.2) = [1] /\
  wif_invocations (trace w r.2) = 1%nat /\
  key_publishes (trace w r.2) = [] /\
  exit_status r.1 = 0.
Proof.
  intros w r.
  destruct (init_key_export_fallback w new_project tt ∅) as (_ & _ & _ & H & _).
  destruct (H 1 eq_refl ltac:(discriminate)) as (Hwif & Hpub & Hexit).
  split; [reflexivity|]. split; [exact Hwif|]. split; [exact Hpub|].
  apply Hexit. lazy. repeat split.
Defined.
